(** * rucio.common.didtype: the DID type

    A shallow embedding of [lib/rucio/common/didtype.py] and the proofs of
    its parsing, normalisation, rendering and equality properties.

    Conventions of the embedding.
    - A Python [str] is a [string]; the code only ever compares characters
      with [':'], ['.'] and ['/'], takes lengths against [0] and removes a
      last ['/'], so a string of bytes and a string of code points behave
      alike here.
    - The attributes [scope] and [name] are declared [str] in the class
      ([self.scope: str = ''], [dict[str, str]], [tuple[str, str]],
      [list[str]]).  The record [DID] keeps them as strings, and a value of
      another type that would be stored in one of them ends the evaluation
      with [NotAStr]: such calls are outside the declared types.
    - A method that assigns to [self] is a function from the object before
      the call to the object after it; [raise] is the [Raise] outcome. *)

From Stdlib Require Import String Ascii List Bool Arith ZArith Lia.
From stdpp Require Import base option list strings gmap fin_maps.
Import ListNotations.

Local Open Scope string_scope.

(** ** Outcomes *)

(** The places where the class raises [DIDError], with the text of the
    message in the source. *)
Inductive DIDError : Type :=
| TooManyArguments (given : nat)
    (* 'Constructor takes at most 2 arguments. Given number: {}' *)
| UnexpectedKeyword (k : string)
    (* 'Constructor got unexpected keyword argument: {}' *)
| PositionalNotStr
    (* 'First argument of constructor is expected to be string type when
       keyword argument is given. Given type: {}' *)
| CannotBuildFrom
    (* 'Cannot build object from: {}' *)
| NonSplitable
    (* 'Object construction from non-splitable string is ambigious' *)
| NotTwoElements (given : nat)
    (* 'Construction from tuple or list requires exactly 2 elements.
       Number of elements passed: %i' *)
| InvalidFormat (rendered : string).
    (* 'Object has invalid format after construction: {}' *)

Inductive result (A : Type) : Type :=
| Ok (a : A)
| Raise (e : DIDError)
| NotAStr.

Arguments Ok {A} a.
Arguments Raise {A} e.
Arguments NotAStr {A}.

(** Sequencing: the first outcome that is not [Ok] ends the evaluation.
    With the instance, [x ← r; k] is stdpp's notation for it. *)
#[global] Instance result_bind : MBind result := λ A B k r,
  match r with
  | Ok a => k a
  | Raise e => Raise e
  | NotAStr => NotAStr
  end.

(** ** Python values reaching the constructor *)

Record DID : Type := mkDID { scope : string; name : string }.

#[warnings="-register-all"]
Inductive PyVal : Type :=
| PyStr (s : string)
| PyTuple (items : list PyVal)
| PyList (items : list PyVal)
| PyDict (d : gmap string PyVal)
| PyDID (d : DID)
| PyOther.   (* None, a number, ...: none of the types [_construct_did] tests *)

(** Reading a value into a [str] attribute. *)
Definition as_str (v : PyVal) : result string :=
  match v with
  | PyStr s => Ok s
  | _ => NotAStr
  end.

(** ** The string methods the class calls *)

Module Str.

(** [len(s)] *)
Definition len (s : string) : nat := String.length s.

(** [s.count(c)] for a one-character [c]. *)
Fixpoint count (c : ascii) (s : string) : nat :=
  match s with
  | EmptyString => 0
  | String x s' => (if Ascii.eqb x c then 1 else 0) + count c s'
  end.

(** [s.split(c)] for a one-character [c]: never the empty list. *)
Fixpoint split (c : ascii) (s : string) : list string :=
  match s with
  | EmptyString => [EmptyString]
  | String x s' =>
      if Ascii.eqb x c then EmptyString :: split c s'
      else match split c s' with
           | part :: parts => String x part :: parts
           | [] => [String x EmptyString]
           end
  end.

(** [s.split(c, maxsplit)]: at most [maxsplit] cuts, from the left. *)
Fixpoint split_max (c : ascii) (maxsplit : nat) (s : string) {struct s}
  : list string :=
  match maxsplit with
  | 0 => [s]
  | S m =>
      match s with
      | EmptyString => [EmptyString]
      | String x s' =>
          if Ascii.eqb x c then EmptyString :: split_max c m s'
          else match split_max c (S m) s' with
               | part :: parts => String x part :: parts
               | [] => [String x EmptyString]
               end
      end
  end.

(** [sep.join(parts)] *)
Fixpoint join (sep : string) (parts : list string) : string :=
  match parts with
  | [] => EmptyString
  | [p] => p
  | p :: rest => p ++ sep ++ join sep rest
  end.

(** [s.endswith(c)] for a one-character [c]. *)
Fixpoint endswith (c : ascii) (s : string) : bool :=
  match s with
  | EmptyString => false
  | String x EmptyString => Ascii.eqb x c
  | String _ s' => endswith c s'
  end.

(** [s[:-1]] *)
Fixpoint drop_last (s : string) : string :=
  match s with
  | EmptyString => EmptyString
  | String _ EmptyString => EmptyString
  | String x s' => String x (drop_last s')
  end.

End Str.

(** ** Class constants *)

Definition SCOPE_SEPARATOR : ascii := ":"%char.
Definition IMPLICIT_SCOPE_SEPARATOR : ascii := "."%char.
Definition IMPLICIT_SCOPE_TO_LEN : gmap string nat :=
  <["user" := 2]> (<["group" := 2]> ∅).

(** The literal ['/'] of [_construct_did]. *)
Definition PATH_SEPARATOR : ascii := "/"%char.

(** The object as [__init__] first makes it: both attributes [''] . *)
Definition blank : DID := mkDID "" "".

(** ** Methods *)

(** [has_scope]: [len(self.scope) > 0] *)
Definition has_scope (self : DID) : bool := Nat.ltb 0 (Str.len (scope self)).

(** [has_name]: [len(self.name) > 0] *)
Definition has_name (self : DID) : bool := Nat.ltb 0 (Str.len (name self)).

(** [is_valid_format] *)
Definition is_valid_format (self : DID) : bool :=
  if Nat.ltb 0 (Str.count SCOPE_SEPARATOR (scope self))
     || Nat.ltb 0 (Str.count SCOPE_SEPARATOR (name self))
  then false
  else true.

(** [__str__] *)
Definition __str__ (self : DID) : string :=
  if has_scope self && has_name self
  then scope self ++ String SCOPE_SEPARATOR EmptyString ++ name self
  else if has_scope self then scope self
  else name self.

(** [_update_implicit_scope].  [did_parts[0]] exists: [split] never
    returns the empty list ([split_nonempty] below).  The slice
    [did_parts[0:num_scope_parts]] is [take], which like the slice stops at
    the end of the list. *)
Definition _update_implicit_scope (self : DID) : DID :=
  let did_parts := Str.split IMPLICIT_SCOPE_SEPARATOR (name self) in
  let num_scope_parts :=
    default 0 (IMPLICIT_SCOPE_TO_LEN !! nth 0 did_parts "") in
  if Nat.ltb 0 num_scope_parts
  then mkDID (Str.join (String IMPLICIT_SCOPE_SEPARATOR EmptyString)
                (take num_scope_parts did_parts))
             (name self)
  else self.

(** [_did_from_str].  [split(':', 1)] returns one or two parts, so
    [did_parts[0]] and [did_parts[1]] exist in the second branch
    ([split_max_1_whole] and [split_max_1_cut] below). *)
Definition _did_from_str (self : DID) (did : string) : result DID :=
  let did_parts := Str.split_max SCOPE_SEPARATOR 1 did in
  if Nat.eqb (length did_parts) 1 then
    let self := mkDID (scope self) did in
    let self := _update_implicit_scope self in
    if negb (has_scope self) then Raise NonSplitable else Ok self
  else
    Ok (mkDID (nth 0 did_parts "") (nth 1 did_parts "")).

(** [_did_from_dict]: [did.get('scope', '')] and [did.get('name', '')] *)
Definition _did_from_dict (self : DID) (did : gmap string PyVal) : result DID :=
  s ← as_str (default (PyStr "") (did !! "scope"));
  n ← as_str (default (PyStr "") (did !! "name"));
  let self := mkDID s n in
  if negb (has_scope self) then Ok (_update_implicit_scope self) else Ok self.

(** [_did_from_list_or_tuple] *)
Definition _did_from_list_or_tuple (self : DID) (did : list PyVal) : result DID :=
  match did with
  | [d0; d1] =>
      s ← as_str d0;
      n ← as_str d1;
      Ok (mkDID s n)
  | _ => Raise (NotTwoElements (length did))
  end.

(** [_did_from_did_object] *)
Definition _did_from_did_object (self : DID) (did : DID) : result DID :=
  Ok (mkDID (scope did) (name did)).

(** The last statement of [_construct_did]:
    [if self.name.endswith('/'): self.name = self.name[:-1]] *)
Definition strip_trailing_slash (self : DID) : DID :=
  if Str.endswith PATH_SEPARATOR (name self)
  then mkDID (scope self) (Str.drop_last (name self))
  else self.

(** The [isinstance] chain of [_construct_did]. *)
Definition dispatch (self : DID) (did : PyVal) : result DID :=
  match did with
  | PyDict d => _did_from_dict self d
  | PyTuple l | PyList l => _did_from_list_or_tuple self l
  | PyStr s => _did_from_str self s
  | PyDID d => _did_from_did_object self d
  | PyOther => Raise CannotBuildFrom
  end.

(** [_construct_did] *)
Definition _construct_did (self : DID) (did : PyVal) : result DID :=
  self ← dispatch self did;
  Ok (strip_trailing_slash self).

(** [_parse_did_from_args] *)
Definition _parse_did_from_args (args : list PyVal) (kwargs : gmap string PyVal)
  : result PyVal :=
  let num_args := length args in
  let num_kwargs := size kwargs in
  if Nat.ltb 2 (num_args + num_kwargs)
  then Raise (TooManyArguments (num_args + num_kwargs))
  else
    match args with
    | [did] =>
        match map_to_list kwargs with
        | [(k, v)] =>
            (* num_kwargs == 1, and k, v = next(iter(kwargs.items())) *)
            match did with
            | PyStr _ =>
                if String.eqb k "scope" then Ok (PyTuple [v; did])
                else if String.eqb k "name" then Ok (PyTuple [did; v])
                else Raise (UnexpectedKeyword k)
            | _ => Raise PositionalNotStr
            end
        | _ => Ok did
        end
    | [] => Ok (default (PyDict kwargs) (kwargs !! "did"))
    | _ => Ok (PyTuple args)
    end.

(** [__init__] *)
Definition __init__ (args : list PyVal) (kwargs : gmap string PyVal) : result DID :=
  let self := blank in
  did ← _parse_did_from_args args kwargs;
  self ← _construct_did self did;
  if negb (is_valid_format self)
  then Raise (InvalidFormat (__str__ self))
  else Ok self.

(** [__eq__] *)
Definition __eq__ (self : DID) (other : PyVal) : result bool :=
  match other with
  | PyStr s => Ok (String.eqb (__str__ self) s)
  | PyDID o => Ok (String.eqb (scope self) (scope o) && String.eqb (name self) (name o))
  | _ =>
      match __init__ [other] ∅ with
      | Ok o => Ok (String.eqb (scope self) (scope o) && String.eqb (name self) (name o))
      | Raise _ => Ok false
      | NotAStr => NotAStr
      end
  end.


Section Hash.
(** The builtin [hash] on strings. *)
Variable hash : string -> Z.

(** [__hash__] *)
Definition __hash__ (self : DID) : Z := hash (__str__ self).
End Hash.

(** ** Vocabulary of the statements *)

(** The first dot-separated part of a name, [name.split('.')[0]], and
    whether it is a key of [IMPLICIT_SCOPE_TO_LEN]. *)
Definition first_part (n : string) : string :=
  nth 0 (Str.split IMPLICIT_SCOPE_SEPARATOR n) "".

Definition recognized (n : string) : bool :=
  String.eqb (first_part n) "user" || String.eqb (first_part n) "group".

(** A string without the scope separator. *)
Definition no_separator (s : string) : Prop := Str.count SCOPE_SEPARATOR s = 0.

(** * Properties *)

(** ** Strings *)

Section StrFacts.
Variable c : ascii.

Lemma count_app (a b : string) :
  Str.count c (a ++ b) = Str.count c a + Str.count c b.
Proof.
  induction a as [|x a IH]; simpl; [reflexivity|].
  rewrite IH. lia.
Qed.

Lemma count_cons_0 (x : ascii) (s : string) :
  Str.count c (String x s) = 0 -> Ascii.eqb x c = false /\ Str.count c s = 0.
Proof.
  simpl. destruct (Ascii.eqb x c); simpl; intros H; [discriminate|auto].
Qed.

Lemma split_max_1_whole (s : string) :
  Str.count c s = 0 -> Str.split_max c 1 s = [s].
Proof.
  induction s as [|x s IH]; [reflexivity|].
  intros H. apply count_cons_0 in H as [Hx Hs].
  simpl. rewrite Hx. simpl in IH. rewrite (IH Hs). destruct s; reflexivity.
Qed.

Lemma split_max_1_cut (a b : string) :
  Str.count c a = 0 -> Str.split_max c 1 (a ++ String c b) = [a; b].
Proof.
  induction a as [|x a IH]; intros H.
  - simpl. rewrite Ascii.eqb_refl. destruct b; reflexivity.
  - apply count_cons_0 in H as [Hx Ha].
    change (String x a ++ String c b) with (String x (a ++ String c b)).
    cbn [Str.split_max]. rewrite Hx.
    specialize (IH Ha). cbn [Str.split_max] in IH.
    destruct (a ++ String c b) eqn:E.
    + destruct a; discriminate.
    + rewrite IH. reflexivity.
Qed.

(** The first occurrence of [c] cuts a string that contains it. *)
Lemma count_pos_cut (s : string) :
  Str.count c s <> 0 ->
  exists a b, s = a ++ String c b /\ Str.count c a = 0.
Proof.
  induction s as [|x s IH]; simpl; [congruence|].
  destruct (Ascii.eqb x c) eqn:Hx; intros H.
  - apply Ascii.eqb_eq in Hx. subst x. exists EmptyString, s. split; reflexivity.
  - destruct (IH H) as (a & b & -> & Ha).
    exists (String x a), b. split; [reflexivity|]. simpl. rewrite Hx. exact Ha.
Qed.

Lemma split_nonempty (s : string) : Str.split c s <> [].
Proof.
  destruct s as [|x s]; simpl; [discriminate|].
  destruct (Ascii.eqb x c); [discriminate|].
  destruct (Str.split c s); discriminate.
Qed.

Lemma endswith_snoc (n : string) :
  Str.endswith c (n ++ String c EmptyString) = true.
Proof.
  induction n as [|x n IH]; simpl; [apply Ascii.eqb_refl|].
  destruct (n ++ String c EmptyString) eqn:E; [destruct n; discriminate|exact IH].
Qed.

Lemma drop_last_snoc (x : ascii) (n : string) :
  Str.drop_last (n ++ String x EmptyString) = n.
Proof.
  induction n as [|y n IH]; simpl; [reflexivity|].
  destruct (n ++ String x EmptyString) eqn:E; [destruct n; discriminate|].
  rewrite IH. reflexivity.
Qed.

Lemma endswith_inv (s : string) :
  Str.endswith c s = true -> s = Str.drop_last s ++ String c EmptyString.
Proof.
  induction s as [|x s IH]; simpl; [discriminate|].
  destruct s as [|y s].
  - intros H. apply Ascii.eqb_eq in H. subst x. reflexivity.
  - intros H.
    change (String x (String y s) =
            String x (Str.drop_last (String y s) ++ String c EmptyString)).
    f_equal. exact (IH H).
Qed.

Lemma endswith_false (s n : string) :
  Str.endswith c s = false -> s <> n ++ String c EmptyString.
Proof.
  intros H ->. rewrite endswith_snoc in H. discriminate.
Qed.

End StrFacts.

Lemma count_drop_last (c : ascii) (s : string) :
  Str.count c s = 0 -> Str.count c (Str.drop_last s) = 0.
Proof.
  induction s as [|x s IH]; simpl; [reflexivity|].
  destruct s as [|y s]; [reflexivity|].
  intros H. change (Str.count c (String x (Str.drop_last (String y s))) = 0).
  simpl in *. destruct (Ascii.eqb x c); simpl in *; [discriminate|].
  apply IH. exact H.
Qed.

Lemma length_append (a b : string) :
  String.length (a ++ b) = String.length a + String.length b.
Proof.
  induction a as [|x a IH]; simpl; [reflexivity|]. rewrite IH. reflexivity.
Qed.

Lemma length_drop_last (c : ascii) (s : string) :
  Str.endswith c s = true -> String.length s = S (String.length (Str.drop_last s)).
Proof.
  intros H. rewrite (endswith_inv c s H) at 1.
  rewrite length_append. simpl. lia.
Qed.

Lemma split_parts_count (c d : ascii) (s : string) :
  Str.count c s = 0 -> Forall (fun p => Str.count c p = 0) (Str.split d s).
Proof.
  induction s as [|x s IH]; intros H.
  - constructor; [reflexivity|constructor].
  - apply count_cons_0 in H as [Hx Hs]. specialize (IH Hs). simpl.
    destruct (Ascii.eqb x d).
    + constructor; [reflexivity|exact IH].
    + destruct (Str.split d s) as [|p ps].
      * constructor; [simpl; rewrite Hx; reflexivity|constructor].
      * inversion IH; subst. constructor; [|assumption].
        simpl. rewrite Hx. assumption.
Qed.

Lemma join_parts_count (c : ascii) (sep : string) (parts : list string) :
  Str.count c sep = 0 ->
  Forall (fun p => Str.count c p = 0) parts ->
  Str.count c (Str.join sep parts) = 0.
Proof.
  intros Hsep. induction 1 as [|p ps Hp Hps IH]; [reflexivity|].
  destruct ps as [|q ps]; [exact Hp|].
  change (Str.count c (p ++ sep ++ Str.join sep (q :: ps)) = 0).
  rewrite !count_app, Hp, Hsep, IH. reflexivity.
Qed.

(** The first part of a split is a prefix of the string. *)
Lemma split_first_prefix (c : ascii) (s : string) :
  exists rest, s = nth 0 (Str.split c s) "" ++ rest.
Proof.
  induction s as [|x s [rest IH]].
  - exists "". reflexivity.
  - simpl. destruct (Ascii.eqb x c).
    + exists (String x s). reflexivity.
    + pose proof (split_nonempty c s) as Hne.
      destruct (Str.split c s) as [|p ps]; [congruence|].
      exists rest. simpl in *. rewrite IH at 1. reflexivity.
Qed.

(** ** The table of implicit scopes *)

Lemma scope_len_lookup (k : string) :
  default 0 (IMPLICIT_SCOPE_TO_LEN !! k) =
  if String.eqb k "user" || String.eqb k "group" then 2 else 0.
Proof.
  unfold IMPLICIT_SCOPE_TO_LEN.
  destruct (String.eqb_spec k "user") as [->|Hu]; [reflexivity|].
  rewrite lookup_insert_ne by congruence.
  destruct (String.eqb_spec k "group") as [->|Hg]; [reflexivity|].
  rewrite lookup_insert_ne by congruence.
  rewrite lookup_empty. reflexivity.
Qed.

Lemma update_implicit_scope_eq (self : DID) :
  _update_implicit_scope self =
  if recognized (name self)
  then mkDID (Str.join "." (take 2 (Str.split IMPLICIT_SCOPE_SEPARATOR (name self))))
             (name self)
  else self.
Proof.
  unfold _update_implicit_scope, recognized, first_part.
  rewrite scope_len_lookup.
  destruct (_ || _); reflexivity.
Qed.

Lemma update_implicit_scope_name (self : DID) :
  name (_update_implicit_scope self) = name self.
Proof.
  rewrite update_implicit_scope_eq. destruct (recognized _); reflexivity.
Qed.

(** A scope taken from a recognized name starts with the kind, so it is
    not empty. *)
Lemma recognized_scope_nonempty (n : string) :
  recognized n = true ->
  Str.join "." (take 2 (Str.split IMPLICIT_SCOPE_SEPARATOR n)) <> "".
Proof.
  unfold recognized, first_part. intros H.
  pose proof (split_nonempty IMPLICIT_SCOPE_SEPARATOR n) as Hne.
  destruct (Str.split IMPLICIT_SCOPE_SEPARATOR n) as [|p ps]; [congruence|].
  simpl in H.
  assert (Hp : p <> "").
  { intros ->. discriminate H. }
  destruct ps as [|q ps]; simpl; [exact Hp|].
  destruct p; [congruence|discriminate].
Qed.

Lemma recognized_length (n : string) :
  recognized n = true -> 4 <= String.length n.
Proof.
  unfold recognized, first_part. intros H.
  destruct (split_first_prefix IMPLICIT_SCOPE_SEPARATOR n) as [rest E].
  rewrite E, length_append.
  apply orb_true_iff in H as [H|H]; apply String.eqb_eq in H; rewrite H; simpl; lia.
Qed.

(** ** Attributes and rendering *)

Lemma has_scope_true (self : DID) : has_scope self = true <-> scope self <> "".
Proof.
  unfold has_scope, Str.len. destruct (scope self); cbn; split; intros H;
    first [reflexivity | discriminate | congruence].
Qed.

Lemma has_scope_false (self : DID) : has_scope self = false <-> scope self = "".
Proof.
  unfold has_scope, Str.len. destruct (scope self); cbn; split; intros H;
    first [reflexivity | discriminate | congruence].
Qed.

Lemma has_name_true (self : DID) : has_name self = true <-> name self <> "".
Proof.
  unfold has_name, Str.len. destruct (name self); cbn; split; intros H;
    first [reflexivity | discriminate | congruence].
Qed.

Lemma has_name_false (self : DID) : has_name self = false <-> name self = "".
Proof.
  unfold has_name, Str.len. destruct (name self); cbn; split; intros H;
    first [reflexivity | discriminate | congruence].
Qed.

Lemma count_zero_ltb (n : nat) : Nat.ltb 0 n = false <-> n = 0.
Proof. rewrite Nat.ltb_ge. lia. Qed.

Lemma is_valid_format_true (self : DID) :
  is_valid_format self = true <->
  Str.count SCOPE_SEPARATOR (scope self) = 0 /\
  Str.count SCOPE_SEPARATOR (name self) = 0.
Proof.
  unfold is_valid_format.
  destruct (Nat.ltb 0 (Str.count SCOPE_SEPARATOR (scope self))) eqn:Es;
  destruct (Nat.ltb 0 (Str.count SCOPE_SEPARATOR (name self))) eqn:En; simpl.
  all: try apply count_zero_ltb in Es; try apply count_zero_ltb in En.
  all: split; [try discriminate|intros [Hs Hn]]; auto.
  all: try (rewrite Hs in Es; discriminate Es).
  all: try (rewrite Hn in En; discriminate En).
Qed.

Lemma update_implicit_scope_valid (self : DID) :
  is_valid_format self = true ->
  is_valid_format (_update_implicit_scope self) = true.
Proof.
  rewrite update_implicit_scope_eq. destruct (recognized (name self)); [|tauto].
  rewrite !is_valid_format_true. simpl. intros [_ Hn]. split; [|exact Hn].
  apply join_parts_count; [reflexivity|].
  apply Forall_take, split_parts_count, Hn.
Qed.

Lemma strip_trailing_slash_valid (self : DID) :
  is_valid_format self = true ->
  is_valid_format (strip_trailing_slash self) = true.
Proof.
  unfold strip_trailing_slash. destruct (Str.endswith _ _); [|tauto].
  rewrite !is_valid_format_true. simpl. intros [Hs Hn]. split; [exact Hs|].
  apply count_drop_last, Hn.
Qed.

(** ** The constructor *)

Lemma parse_single (v : PyVal) : _parse_did_from_args [v] ∅ = Ok v.
Proof. reflexivity. Qed.

Lemma init_single (v : PyVal) :
  __init__ [v] ∅ =
  match _construct_did blank v with
  | Ok self =>
      if negb (is_valid_format self) then Raise (InvalidFormat (__str__ self))
      else Ok self
  | Raise e => Raise e
  | NotAStr => NotAStr
  end.
Proof.
  unfold __init__. rewrite parse_single. cbn [mbind result_bind].
  destruct (_construct_did blank v); reflexivity.
Qed.

Lemma init_ok_valid (args : list PyVal) (kwargs : gmap string PyVal) (d : DID) :
  __init__ args kwargs = Ok d -> is_valid_format d = true.
Proof.
  unfold __init__.
  destruct (_parse_did_from_args args kwargs) as [did| |]; cbn; [|discriminate..].
  destruct (_construct_did blank did) as [self| |]; cbn; [|discriminate..].
  destruct (is_valid_format self) eqn:E; cbn; [|discriminate].
  intros [= <-]. exact E.
Qed.

Lemma did_from_str_whole (self : DID) (s : string) :
  Str.count SCOPE_SEPARATOR s = 0 ->
  _did_from_str self s =
  let r := _update_implicit_scope (mkDID (scope self) s) in
  if negb (has_scope r) then Raise NonSplitable else Ok r.
Proof.
  intros H. unfold _did_from_str. rewrite (split_max_1_whole _ _ H). reflexivity.
Qed.

Lemma did_from_str_cut (self : DID) (a b : string) :
  Str.count SCOPE_SEPARATOR a = 0 ->
  _did_from_str self (a ++ String SCOPE_SEPARATOR b) = Ok (mkDID a b).
Proof.
  intros H. unfold _did_from_str. rewrite (split_max_1_cut _ _ _ H). reflexivity.
Qed.

(** Construction from a string without the separator. *)
Lemma init_str_whole (s : string) :
  Str.count SCOPE_SEPARATOR s = 0 ->
  __init__ [PyStr s] ∅ =
  let r := _update_implicit_scope (mkDID "" s) in
  if has_scope r then Ok (strip_trailing_slash r) else Raise NonSplitable.
Proof.
  intros H. rewrite init_single. unfold _construct_did. cbn [dispatch].
  rewrite (did_from_str_whole _ _ H). cbn [blank scope]. cbn zeta.
  destruct (has_scope (_update_implicit_scope (mkDID "" s))) eqn:E; cbn; [|reflexivity].
  rewrite strip_trailing_slash_valid; [reflexivity|].
  apply update_implicit_scope_valid, is_valid_format_true. split; [reflexivity|exact H].
Qed.

(** Construction from a string with a separator: cut at the first one. *)
Lemma init_str_cut (a b : string) :
  Str.count SCOPE_SEPARATOR a = 0 ->
  __init__ [PyStr (a ++ String SCOPE_SEPARATOR b)] ∅ =
  let self := strip_trailing_slash (mkDID a b) in
  if is_valid_format self then Ok self else Raise (InvalidFormat (__str__ self)).
Proof.
  intros H. rewrite init_single. unfold _construct_did. cbn [dispatch].
  rewrite (did_from_str_cut _ _ _ H). cbn.
  destruct (is_valid_format (strip_trailing_slash (mkDID a b))); reflexivity.
Qed.

(** ** Invariant of constructed objects *)

(** C4. A constructed identifier has no [':'] in [scope] nor in [name]; and
    when the parsing paths leave an object with a [':'] in one of them,
    [__init__] raises [DIDError] ("Object has invalid format after
    construction") and returns no instance. *)
Theorem constructed_fields_have_no_separator
  (args : list PyVal) (kwargs : gmap string PyVal) :
  (forall d : DID, __init__ args kwargs = Ok d ->
     no_separator (scope d) /\ no_separator (name d)) /\
  (forall (did : PyVal) (self : DID),
     _parse_did_from_args args kwargs = Ok did ->
     _construct_did blank did = Ok self ->
     ~ (no_separator (scope self) /\ no_separator (name self)) ->
     __init__ args kwargs = Raise (InvalidFormat (__str__ self))).
Proof.
  split.
  - intros d H. apply is_valid_format_true. exact (init_ok_valid _ _ _ H).
  - intros did self Hp Hc Hbad. unfold __init__. rewrite Hp. cbn.
    rewrite Hc. cbn.
    destruct (is_valid_format self) eqn:E; [|reflexivity].
    apply is_valid_format_true in E. contradiction.
Qed.

Lemma constructed_fields_have_no_separator_witness :
  (no_separator "a" /\ no_separator "b") /\
  __init__ [PyTuple [PyStr "a:b"; PyStr "c"]] ∅ = Raise (InvalidFormat "a:b:c").
Proof.
  split.
  - apply (proj1 (constructed_fields_have_no_separator [PyStr "a:b"] ∅)
             (mkDID "a" "b")).
    reflexivity.
  - apply (proj2 (constructed_fields_have_no_separator
                    [PyTuple [PyStr "a:b"; PyStr "c"]] ∅)
             (PyTuple [PyStr "a:b"; PyStr "c"]) (mkDID "a:b" "c")).
    + reflexivity.
    + reflexivity.
    + intros [H _]. discriminate H.
Defined.

(** ** The trailing slash *)

(** C5. Whatever path produced [(scope, name)], [_construct_did] removes
    one trailing ['/'] of [name] and no more: a name [n ++ "/"] becomes
    [n] whatever [n] ends with, a name that does not end with ['/'] is
    kept, and [scope] is not touched.  So ["a:b/"] gives the name ["b"]
    and ["a:b//"] gives the name ["b/"]. *)
Theorem trailing_slash_stripped_once :
  (forall (self : DID) (did : PyVal) (produced : DID) (n : string),
     dispatch self did = Ok produced ->
     name produced = n ++ "/" ->
     _construct_did self did = Ok (mkDID (scope produced) n)) /\
  (forall (self : DID) (did : PyVal) (produced : DID),
     dispatch self did = Ok produced ->
     (forall n, name produced <> n ++ "/") ->
     _construct_did self did = Ok produced) /\
  __init__ [PyStr "a:b/"] ∅ = Ok (mkDID "a" "b") /\
  __init__ [PyStr "a:b//"] ∅ = Ok (mkDID "a" "b/").
Proof.
  split; [|split; [|split; reflexivity]].
  - intros self did produced n Hd Hn. unfold _construct_did. rewrite Hd. cbn.
    unfold strip_trailing_slash. rewrite Hn.
    change (n ++ "/") with (n ++ String PATH_SEPARATOR EmptyString).
    rewrite endswith_snoc, drop_last_snoc. reflexivity.
  - intros self did produced Hd Hn. unfold _construct_did. rewrite Hd. cbn.
    unfold strip_trailing_slash.
    destruct (Str.endswith PATH_SEPARATOR (name produced)) eqn:E; [|reflexivity].
    apply endswith_inv in E. exfalso. exact (Hn _ E).
Qed.

Lemma trailing_slash_stripped_once_witness :
  _construct_did blank (PyTuple [PyStr "a"; PyStr "b//"]) = Ok (mkDID "a" "b/").
Proof.
  apply (proj1 trailing_slash_stripped_once blank
           (PyTuple [PyStr "a"; PyStr "b//"]) (mkDID "a" "b//") "b/");
    reflexivity.
Defined.

(** ** Construction from a string *)

(** C7. A string without [':'] becomes the name as a whole and the implicit
    scope is looked for in it; the construction raises exactly when the
    scope is still empty afterwards, and succeeds otherwise.  A string
    with [':'] is cut at its first occurrence only: what precedes is the
    scope, all that follows is the name, and a second [':'] is left in the
    name for the validation to refuse. *)
Theorem construction_from_string :
  (forall s : string, no_separator s ->
     let r := _update_implicit_scope (mkDID "" s) in
     name r = s /\
     (scope r = "" ->
        _did_from_str blank s = Raise NonSplitable /\
        __init__ [PyStr s] ∅ = Raise NonSplitable) /\
     (scope r <> "" ->
        _did_from_str blank s = Ok r /\
        __init__ [PyStr s] ∅ = Ok (strip_trailing_slash r)) /\
     ((exists e, __init__ [PyStr s] ∅ = Raise e) <-> scope r = "")) /\
  (forall (self : DID) (s : string), ~ no_separator s ->
     exists a b : string,
       s = a ++ ":" ++ b /\ no_separator a /\
       _did_from_str self s = Ok (mkDID a b) /\
       __init__ [PyStr s] ∅ =
         (let r := strip_trailing_slash (mkDID a b) in
          if is_valid_format r then Ok r else Raise (InvalidFormat (__str__ r)))) /\
  (forall (self : DID) (a b : string), no_separator a ->
     _did_from_str self (a ++ ":" ++ b) = Ok (mkDID a b)).
Proof.
  split; [|split].
  - intros s Hs r.
    pose proof (init_str_whole s Hs) as Hi.
    pose proof (did_from_str_whole blank s Hs) as Hf.
    cbn zeta in Hi, Hf. cbn [blank scope] in Hf. fold r in Hi, Hf.
    split; [apply update_implicit_scope_name|].
    split; [|split].
    + intros E. apply has_scope_false in E. rewrite Hi, Hf, E. split; reflexivity.
    + intros E. apply has_scope_true in E. rewrite Hi, Hf, E. split; reflexivity.
    + rewrite Hi. destruct (has_scope r) eqn:E.
      * apply has_scope_true in E. split; [intros [e He]; discriminate He|contradiction].
      * apply has_scope_false in E. split; [intros _; exact E|intros _; eauto].
  - intros self s Hs.
    destruct (count_pos_cut SCOPE_SEPARATOR s Hs) as (a & b & -> & Ha).
    exists a, b. split; [reflexivity|]. split; [exact Ha|]. split.
    + apply did_from_str_cut. exact Ha.
    + apply init_str_cut. exact Ha.
  - intros self a b Ha. apply did_from_str_cut. exact Ha.
Qed.

Lemma construction_from_string_witness :
  __init__ [PyStr "plainname"] ∅ = Raise NonSplitable /\
  _did_from_str blank "a:b:c" = Ok (mkDID "a" "b:c").
Proof.
  split.
  - apply (proj1 construction_from_string "plainname"); reflexivity.
  - apply (proj2 (proj2 construction_from_string) blank "a" "b:c"). reflexivity.
Defined.

(** ** Construction without arguments *)

(** C10. [DID()] and [DID({})] succeed with both attributes empty, and the
    rendering of that object is the empty string; more generally a mapping
    with neither key gives this object: the dictionary path does not ask
    for a scope or a name. *)
Theorem empty_construction :
  __init__ [] ∅ = Ok (mkDID "" "") /\
  __init__ [PyDict ∅] ∅ = Ok (mkDID "" "") /\
  __str__ (mkDID "" "") = "" /\
  (forall (self : DID) (d : gmap string PyVal),
     d !! "scope" = None -> d !! "name" = None ->
     _did_from_dict self d = Ok (mkDID "" "")).
Proof.
  repeat split.
  intros self d Hs Hn. unfold _did_from_dict. rewrite Hs, Hn. reflexivity.
Qed.

Lemma empty_construction_witness :
  _did_from_dict blank {[ "did_type" := PyStr "FILE" ]} = Ok (mkDID "" "").
Proof.
  apply (proj2 (proj2 (proj2 empty_construction))); reflexivity.
Defined.

(** ** Implicit scope *)

Lemma recognized_iff (n : string) :
  recognized n = true <-> first_part n = "user" \/ first_part n = "group".
Proof.
  unfold recognized. rewrite orb_true_iff, !String.eqb_eq. reflexivity.
Qed.

(** C6, as the specification words it, does not hold: the name ["user"] has
    a recognized first part and only one part, so its scope is not the join
    of two leading parts. *)
Lemma implicit_scope_not_always_two_parts :
  ~ (forall self : DID,
       first_part (name self) = "user" \/ first_part (name self) = "group" ->
       exists parts rest : list string,
         length parts = 2 /\
         Str.split IMPLICIT_SCOPE_SEPARATOR (name self) = (parts ++ rest)%list /\
         _update_implicit_scope self = mkDID (Str.join "." parts) (name self)).
Proof.
  intros H.
  destruct (H (mkDID "" "user")) as (parts & rest & Hlen & Hsplit & _).
  - left. reflexivity.
  - cbn in Hsplit.
    destruct parts as [|p0 [|p1 [|p2 parts]]]; cbn in Hlen; try discriminate Hlen.
    discriminate Hsplit.
Qed.

(** C6, amended. The table gives 2 for ["user"] and for ["group"].  When the
    first part of the name is one of them, [scope] becomes the ['.']-join
    of the first two parts of the name (of its only part when the name has
    no ['.']) and [name] is unchanged; otherwise the object is unchanged,
    so an empty scope stays empty.  ["user.jdoe.dataset"] gives the scope
    ["user.jdoe"] and keeps the whole string as name. *)
Theorem implicit_scope_resolution (self : DID) :
  IMPLICIT_SCOPE_TO_LEN !! "user" = Some 2 /\
  IMPLICIT_SCOPE_TO_LEN !! "group" = Some 2 /\
  (first_part (name self) = "user" \/ first_part (name self) = "group" ->
     let parts := Str.split IMPLICIT_SCOPE_SEPARATOR (name self) in
     _update_implicit_scope self = mkDID (Str.join "." (take 2 parts)) (name self) /\
     (forall p0 p1 rest, parts = p0 :: p1 :: rest ->
        _update_implicit_scope self = mkDID (p0 ++ "." ++ p1) (name self)) /\
     (forall p0, parts = [p0] ->
        _update_implicit_scope self = mkDID p0 (name self))) /\
  (first_part (name self) <> "user" -> first_part (name self) <> "group" ->
     _update_implicit_scope self = self) /\
  __init__ [PyStr "user.jdoe.dataset"] ∅ = Ok (mkDID "user.jdoe" "user.jdoe.dataset").
Proof.
  split; [reflexivity|]. split; [reflexivity|]. split; [|split; [|reflexivity]].
  - intros H parts. apply recognized_iff in H.
    assert (E : _update_implicit_scope self =
                mkDID (Str.join "." (take 2 parts)) (name self)).
    { rewrite update_implicit_scope_eq, H. reflexivity. }
    split; [exact E|]. split.
    + intros p0 p1 rest Hp. rewrite E, Hp. reflexivity.
    + intros p0 Hp. rewrite E, Hp. reflexivity.
  - intros Hu Hg. rewrite update_implicit_scope_eq.
    destruct (recognized (name self)) eqn:E; [|reflexivity].
    apply recognized_iff in E as [E|E]; contradiction.
Qed.

Lemma implicit_scope_resolution_witness :
  _update_implicit_scope (mkDID "" "group.phys.data.root") =
    mkDID "group.phys" "group.phys.data.root" /\
  _update_implicit_scope (mkDID "" "mc16.data") = mkDID "" "mc16.data".
Proof.
  split.
  - apply (proj1 (proj1 (proj2 (proj2 (implicit_scope_resolution
             (mkDID "" "group.phys.data.root")))) (or_intror eq_refl))).
  - apply (proj1 (proj2 (proj2 (proj2 (implicit_scope_resolution
             (mkDID "" "mc16.data")))))); discriminate.
Defined.

(** ** Construction from a mapping *)

(** C8, as the specification words it, does not hold: with the key
    ['scope'] present and mapped to [''], the implicit scope is still
    looked for in the name. *)
Lemma mapping_resolution_not_by_key_absence :
  ~ (forall (d : gmap string PyVal) (s n : string),
       default (PyStr "") (d !! "scope") = PyStr s ->
       default (PyStr "") (d !! "name") = PyStr n ->
       _did_from_dict blank d =
       Ok (match d !! "scope" with
           | None => _update_implicit_scope (mkDID s n)
           | Some _ => mkDID s n
           end)).
Proof.
  intros H.
  assert (E : _did_from_dict blank
                (<["scope" := PyStr ""]> {["name" := PyStr "user.jdoe.dataset"]})
              = Ok (mkDID "" "user.jdoe.dataset")).
  { rewrite (H _ "" "user.jdoe.dataset"); vm_compute; reflexivity. }
  vm_compute in E. discriminate E.
Qed.

(** C8, amended. For a mapping, [scope] and [name] are the values of the
    keys ['scope'] and ['name'], [''] for an absent key.  The implicit scope
    is looked for in the name exactly when the scope read this way is
    empty, which is the case when the key ['scope'] is absent and also when
    it is mapped to ['']; with a non-empty scope nothing is resolved. *)
Theorem mapping_resolution (self : DID) (d : gmap string PyVal) (s n : string) :
  default (PyStr "") (d !! "scope") = PyStr s ->
  default (PyStr "") (d !! "name") = PyStr n ->
  (d !! "scope" = None -> s = "") /\
  (d !! "name" = None -> n = "") /\
  (s = "" -> _did_from_dict self d = Ok (_update_implicit_scope (mkDID "" n))) /\
  (s <> "" -> _did_from_dict self d = Ok (mkDID s n)).
Proof.
  intros Hs Hn. split; [|split; [|split]].
  - intros E. rewrite E in Hs. cbn in Hs. congruence.
  - intros E. rewrite E in Hn. cbn in Hn. congruence.
  - intros ->. unfold _did_from_dict. rewrite Hs, Hn. reflexivity.
  - intros Hne. unfold _did_from_dict. rewrite Hs, Hn. cbn.
    destruct s; [congruence|reflexivity].
Qed.

Lemma mapping_resolution_witness :
  _did_from_dict blank (<["scope" := PyStr ""]> {["name" := PyStr "user.jdoe.dataset"]})
  = Ok (mkDID "user.jdoe" "user.jdoe.dataset").
Proof.
  apply (mapping_resolution blank
           (<["scope" := PyStr ""]> {["name" := PyStr "user.jdoe.dataset"]})
           "" "user.jdoe.dataset"); vm_compute; reflexivity.
Defined.

(** ** Comparison with a string, and hashing *)

Section HashFacts.
Variable hash : string -> Z.

(** C9. A constructed identifier is equal to a string exactly when the
    string is its rendering, and its hash is the hash of its rendering;
    [DID('a:b')] is equal to ['a:b'] and has the hash of ['a:b']. *)
Theorem equal_to_own_rendering
  (args : list PyVal) (kwargs : gmap string PyVal) (d : DID) :
  __init__ args kwargs = Ok d ->
  (forall s : string, __eq__ d (PyStr s) = Ok true <-> s = __str__ d) /\
  (forall s : string, s <> __str__ d -> __eq__ d (PyStr s) = Ok false) /\
  __hash__ hash d = hash (__str__ d) /\
  __init__ [PyStr "a:b"] ∅ = Ok (mkDID "a" "b") /\
  __hash__ hash (mkDID "a" "b") = hash "a:b" /\
  __eq__ (mkDID "a" "b") (PyStr "a:b") = Ok true.
Proof.
  intros _. split; [|split; [|repeat split]].
  - intros s. cbn [__eq__]. split.
    + intros [= H]. apply String.eqb_eq in H. congruence.
    + intros ->. rewrite String.eqb_refl. reflexivity.
  - intros s Hne. cbn [__eq__]. f_equal. apply String.eqb_neq. congruence.
Qed.
End HashFacts.

Lemma equal_to_own_rendering_witness :
  __eq__ (mkDID "user.jdoe" "user.jdoe.dataset") (PyStr "user.jdoe:user.jdoe.dataset")
  = Ok true.
Proof.
  destruct (equal_to_own_rendering (fun s => Z.of_nat (String.length s))
              [PyStr "user.jdoe.dataset"] ∅
              (mkDID "user.jdoe" "user.jdoe.dataset")) as [H _].
  - reflexivity.
  - apply H. reflexivity.
Defined.

(** ** Construction from an identifier *)

(** C3, as the specification words it, does not hold: the identifier made
    from ["a:b//"] has the name ["b/"], and constructing from it gives the
    name ["b"]. *)
Lemma copy_not_always_identical :
  ~ (forall (args : list PyVal) (kwargs : gmap string PyVal) (d : DID),
       __init__ args kwargs = Ok d -> __init__ [PyDID d] ∅ = Ok d).
Proof.
  intros H.
  assert (E : __init__ [PyDID (mkDID "a" "b/")] ∅ = Ok (mkDID "a" "b/")).
  { apply (H [PyStr "a:b//"] ∅). reflexivity. }
  vm_compute in E. discriminate E.
Qed.

(** C3, amended. Constructing from a constructed identifier [d] succeeds,
    copies [scope] as it is and resolves nothing; [name] is copied and then
    loses one trailing ['/'] if it has one.  The result is [d] itself when
    the name of [d] does not end with ['/']. *)
Theorem copy_of_identifier
  (args : list PyVal) (kwargs : gmap string PyVal) (d : DID) :
  __init__ args kwargs = Ok d ->
  _did_from_did_object blank d = Ok d /\
  __init__ [PyDID d] ∅ = Ok (strip_trailing_slash d) /\
  (forall n, name d = n ++ "/" -> __init__ [PyDID d] ∅ = Ok (mkDID (scope d) n)) /\
  (Str.endswith PATH_SEPARATOR (name d) = false -> __init__ [PyDID d] ∅ = Ok d).
Proof.
  intros H. apply init_ok_valid in H.
  assert (E : __init__ [PyDID d] ∅ = Ok (strip_trailing_slash d)).
  { rewrite init_single. unfold _construct_did. cbn [dispatch _did_from_did_object].
    destruct d as [s n]. cbn.
    rewrite (strip_trailing_slash_valid _ H). reflexivity. }
  split; [destruct d; reflexivity|]. split; [exact E|]. split.
  - intros n Hn. rewrite E. unfold strip_trailing_slash. rewrite Hn.
    change (n ++ "/") with (n ++ String PATH_SEPARATOR EmptyString).
    rewrite endswith_snoc, drop_last_snoc. reflexivity.
  - intros Hn. rewrite E. unfold strip_trailing_slash. rewrite Hn. reflexivity.
Qed.

Lemma copy_of_identifier_witness :
  __init__ [PyDID (mkDID "a" "b")] ∅ = Ok (mkDID "a" "b").
Proof.
  destruct (copy_of_identifier [PyStr "a:b"] ∅ (mkDID "a" "b")) as (_ & _ & _ & H).
  - reflexivity.
  - apply H. reflexivity.
Defined.

(** ** Rendering and equality *)

Lemma cut_unique (c : ascii) (a a' b b' : string) :
  Str.count c a = 0 -> Str.count c a' = 0 ->
  a ++ String c b = a' ++ String c b' -> a = a' /\ b = b'.
Proof.
  intros Ha Ha' E.
  apply (f_equal (Str.split_max c 1)) in E.
  rewrite !split_max_1_cut in E by assumption.
  injection E as -> ->. split; reflexivity.
Qed.

Lemma str_both (d : DID) :
  scope d <> "" -> name d <> "" ->
  __str__ d = scope d ++ String SCOPE_SEPARATOR (name d).
Proof.
  intros Hs Hn. unfold __str__.
  apply has_scope_true in Hs. apply has_name_true in Hn. rewrite Hs, Hn. reflexivity.
Qed.

Lemma str_scope_only (d : DID) :
  scope d <> "" -> name d = "" -> __str__ d = scope d.
Proof.
  intros Hs Hn. unfold __str__.
  apply has_scope_true in Hs. apply has_name_false in Hn. rewrite Hs, Hn. reflexivity.
Qed.

Lemma str_no_scope (d : DID) : scope d = "" -> __str__ d = name d.
Proof.
  intros Hs. unfold __str__. apply has_scope_false in Hs. rewrite Hs. reflexivity.
Qed.

Lemma eq_did_true (d1 d2 : DID) :
  __eq__ d1 (PyDID d2) = Ok true <-> scope d1 = scope d2 /\ name d1 = name d2.
Proof.
  cbn [__eq__]. split.
  - intros [= H]. apply andb_true_iff in H as [Hs Hn].
    apply String.eqb_eq in Hs, Hn. auto.
  - intros [-> ->]. rewrite !String.eqb_refl. reflexivity.
Qed.

Lemma fields_eq (d1 d2 : DID) :
  scope d1 = scope d2 -> name d1 = name d2 -> d1 = d2.
Proof. destruct d1, d2. cbn. intros -> ->. reflexivity. Qed.

(** On objects of valid format that both have a scope, or both have none,
    the rendering determines the object. *)
Lemma str_injective (d1 d2 : DID) :
  is_valid_format d1 = true -> is_valid_format d2 = true ->
  has_scope d1 = has_scope d2 ->
  __str__ d1 = __str__ d2 -> d1 = d2.
Proof.
  intros V1 V2 Hsc E.
  apply is_valid_format_true in V1 as [S1 N1], V2 as [S2 N2].
  destruct (has_scope d1) eqn:H1; symmetry in Hsc.
  - apply has_scope_true in H1, Hsc.
    destruct (string_dec (name d1) "") as [E1|E1];
    destruct (string_dec (name d2) "") as [E2|E2].
    + rewrite !str_scope_only in E by assumption.
      apply fields_eq; congruence.
    + rewrite (str_scope_only d1), (str_both d2) in E by assumption.
      exfalso. rewrite E, count_app in S1. cbn in S1. lia.
    + rewrite (str_both d1), (str_scope_only d2) in E by assumption.
      exfalso. rewrite <- E, count_app in S2. cbn in S2. lia.
    + rewrite !str_both in E by assumption.
      apply cut_unique in E as [Es En]; [|assumption..].
      apply fields_eq; assumption.
  - apply has_scope_false in H1, Hsc.
    rewrite !str_no_scope in E by assumption.
    apply fields_eq; congruence.
Qed.

(** C2, as the specification words it, does not hold: [DID(scope='a')] and
    [DID(name='a')] are both rendered ['a'] and are not equal. *)
Lemma same_rendering_not_equal :
  ~ (forall (args1 args2 : list PyVal) (kwargs1 kwargs2 : gmap string PyVal)
            (d1 d2 : DID),
       __init__ args1 kwargs1 = Ok d1 ->
       __init__ args2 kwargs2 = Ok d2 ->
       (__eq__ d1 (PyDID d2) = Ok true <-> __str__ d1 = __str__ d2)).
Proof.
  intros H.
  assert (E : __eq__ (mkDID "a" "") (PyDID (mkDID "" "a")) = Ok true).
  { apply (H [] [] {["scope" := PyStr "a"]} {["name" := PyStr "a"]});
      vm_compute; reflexivity. }
  vm_compute in E. discriminate E.
Qed.

(** C2, amended. Two constructed identifiers are equal exactly when they
    have the same scope and the same name.  Equal identifiers have the same
    rendering; identifiers with the same rendering are equal provided both
    have a scope or both have none (a rendering with no [':'] is the scope
    of one object and may be the name of another). *)
Theorem equality_and_rendering
  (args1 args2 : list PyVal) (kwargs1 kwargs2 : gmap string PyVal) (d1 d2 : DID) :
  __init__ args1 kwargs1 = Ok d1 ->
  __init__ args2 kwargs2 = Ok d2 ->
  (__eq__ d1 (PyDID d2) = Ok true <-> scope d1 = scope d2 /\ name d1 = name d2) /\
  (__eq__ d1 (PyDID d2) = Ok true -> __str__ d1 = __str__ d2) /\
  (has_scope d1 = has_scope d2 ->
   (__eq__ d1 (PyDID d2) = Ok true <-> __str__ d1 = __str__ d2)).
Proof.
  intros H1 H2. apply init_ok_valid in H1, H2.
  assert (Hstr : __eq__ d1 (PyDID d2) = Ok true -> __str__ d1 = __str__ d2).
  { intros E. apply eq_did_true in E as [Es En].
    rewrite (fields_eq d1 d2 Es En). reflexivity. }
  split; [apply eq_did_true|]. split; [exact Hstr|].
  intros Hsc. split; [exact Hstr|].
  intros E. rewrite (str_injective d1 d2 H1 H2 Hsc E).
  apply eq_did_true. split; reflexivity.
Qed.

Lemma equality_and_rendering_witness :
  __eq__ (mkDID "a" "b") (PyDID (mkDID "a" "b")) = Ok true
  <-> __str__ (mkDID "a" "b") = __str__ (mkDID "a" "b").
Proof.
  destruct (equality_and_rendering [PyStr "a:b"] [PyStr "a"; PyStr "b"] ∅ ∅
              (mkDID "a" "b") (mkDID "a" "b")) as (_ & _ & H).
  - reflexivity.
  - reflexivity.
  - apply H. reflexivity.
Defined.

(** ** Round trip through the rendering *)

Lemma strip_trailing_slash_scope (d : DID) :
  scope (strip_trailing_slash d) = scope d.
Proof. unfold strip_trailing_slash. destruct (Str.endswith _ _); reflexivity. Qed.

Lemma strip_trailing_slash_id (d : DID) :
  Str.endswith PATH_SEPARATOR (name d) = false -> strip_trailing_slash d = d.
Proof. unfold strip_trailing_slash. intros ->. reflexivity. Qed.

Lemma strip_trailing_slash_fixed (d : DID) :
  name (strip_trailing_slash d) = name d ->
  Str.endswith PATH_SEPARATOR (name d) = false.
Proof.
  unfold strip_trailing_slash.
  destruct (Str.endswith PATH_SEPARATOR (name d)) eqn:E; [|reflexivity].
  cbn. intros H. apply length_drop_last in E. rewrite H in E. lia.
Qed.

(** From a string with no separator, a constructed object has a scope and a
    name, both not empty. *)
Lemma init_str_whole_ok (s : string) (d : DID) :
  no_separator s -> __init__ [PyStr s] ∅ = Ok d ->
  scope d <> "" /\ name d <> "".
Proof.
  intros Hs H. rewrite (init_str_whole s Hs) in H. cbn zeta in H.
  destruct (has_scope (_update_implicit_scope (mkDID "" s))) eqn:E; [|discriminate H].
  injection H as <-. split.
  - rewrite strip_trailing_slash_scope. apply has_scope_true. exact E.
  - assert (R : recognized s = true).
    { rewrite update_implicit_scope_eq in E. cbn [name] in E.
      destruct (recognized s); [reflexivity|discriminate E]. }
    apply recognized_length in R.
    unfold strip_trailing_slash. rewrite update_implicit_scope_name. cbn [name].
    destruct (Str.endswith PATH_SEPARATOR s) eqn:Es; cbn [name].
    + apply length_drop_last in Es. intros Hd. rewrite Hd in Es. cbn in Es. lia.
    + rewrite update_implicit_scope_name. cbn. intros ->. cbn in R. lia.
Qed.

(** C1, as the specification words it, does not hold: the identifier made
    from ["a:b//"] is rendered ["a:b/"], which gives the name ["b"] and
    not ["b/"]. *)
Lemma round_trip_not_always :
  ~ (forall (args : list PyVal) (kwargs : gmap string PyVal) (d : DID),
       __init__ args kwargs = Ok d ->
       exists d' : DID,
         __init__ [PyStr (__str__ d)] ∅ = Ok d' /\ __eq__ d (PyDID d') = Ok true).
Proof.
  intros H.
  destruct (H [PyStr "a:b//"] ∅ (mkDID "a" "b/")) as (d' & Hi & He); [reflexivity|].
  vm_compute in Hi. injection Hi as <-.
  vm_compute in He. discriminate He.
Qed.

(** C1, amended. For a constructed identifier [d], constructing from
    [str(d)] succeeds with an identifier equal to [d] exactly when [d] has
    a non-empty scope, a non-empty name, and a name that does not end with
    ['/']; the new identifier is then [d] itself. *)
Theorem round_trip (args : list PyVal) (kwargs : gmap string PyVal) (d : DID) :
  __init__ args kwargs = Ok d ->
  ((exists d' : DID,
      __init__ [PyStr (__str__ d)] ∅ = Ok d' /\ __eq__ d (PyDID d') = Ok true)
   <-> scope d <> "" /\ name d <> "" /\
       Str.endswith PATH_SEPARATOR (name d) = false) /\
  (scope d <> "" -> name d <> "" ->
   Str.endswith PATH_SEPARATOR (name d) = false ->
   __init__ [PyStr (__str__ d)] ∅ = Ok d).
Proof.
  intros H. apply init_ok_valid in H.
  pose proof H as V. apply is_valid_format_true in V as [Vs Vn].
  assert (Hback : scope d <> "" -> name d <> "" ->
                  Str.endswith PATH_SEPARATOR (name d) = false ->
                  __init__ [PyStr (__str__ d)] ∅ = Ok d).
  { intros Hs Hn He. rewrite (str_both d Hs Hn), (init_str_cut _ _ Vs).
    cbn zeta. destruct d as [s n]. cbn [scope name] in *.
    rewrite (strip_trailing_slash_id (mkDID s n) He), H. reflexivity. }
  split; [|exact Hback]. split.
  - intros (d' & Hi & He). apply eq_did_true in He as [Es En].
    rewrite <- (fields_eq d d' Es En) in Hi. clear d' Es En.
    destruct (string_dec (scope d) "") as [Hs|Hs].
    { exfalso. rewrite (str_no_scope d Hs) in Hi.
      destruct (init_str_whole_ok _ _ Vn Hi) as [Hs' _]. contradiction. }
    destruct (string_dec (name d) "") as [Hn|Hn].
    { exfalso. rewrite (str_scope_only d Hs Hn) in Hi.
      destruct (init_str_whole_ok _ _ Vs Hi) as [_ Hn']. contradiction. }
    split; [exact Hs|]. split; [exact Hn|].
    rewrite (str_both d Hs Hn), (init_str_cut _ _ Vs) in Hi. cbn zeta in Hi.
    destruct (is_valid_format (strip_trailing_slash (mkDID (scope d) (name d))));
      [|discriminate Hi].
    injection Hi as Hi. apply (f_equal name) in Hi.
    apply (strip_trailing_slash_fixed (mkDID (scope d) (name d))). exact Hi.
  - intros (Hs & Hn & He). exists d. split; [exact (Hback Hs Hn He)|].
    apply eq_did_true. split; reflexivity.
Qed.

Lemma round_trip_witness :
  __init__ [PyStr (__str__ (mkDID "user.jdoe" "user.jdoe.dataset"))] ∅
  = Ok (mkDID "user.jdoe" "user.jdoe.dataset").
Proof.
  destruct (round_trip [PyStr "user.jdoe.dataset"] ∅
              (mkDID "user.jdoe" "user.jdoe.dataset")) as [_ H].
  - reflexivity.
  - apply H; [discriminate|discriminate|reflexivity].
Defined.

(** * Further properties of the class *)

(** ** The arguments of the constructor *)

Lemma parse_within_two (args : list PyVal) (kwargs : gmap string PyVal) :
  length args + size kwargs <= 2 ->
  Nat.ltb 2 (length args + size kwargs) = false.
Proof. intros H. apply Nat.ltb_ge. exact H. Qed.

(** X1. The count of arguments is checked before anything is parsed: with
    more than two positional and keyword arguments together, the
    constructor raises "takes at most 2 arguments" with their number,
    whatever the arguments are; with at most two, it never raises that
    error. *)
Theorem too_many_arguments (args : list PyVal) (kwargs : gmap string PyVal) :
  (2 < length args + size kwargs ->
   __init__ args kwargs = Raise (TooManyArguments (length args + size kwargs))) /\
  (length args + size kwargs <= 2 ->
   forall n, __init__ args kwargs <> Raise (TooManyArguments n)).
Proof.
  split.
  - intros H. unfold __init__, _parse_did_from_args.
    apply Nat.ltb_lt in H. rewrite H. reflexivity.
  - intros H n. unfold __init__.
    assert (P : forall m, _parse_did_from_args args kwargs <> Raise (TooManyArguments m)).
    { intros m. unfold _parse_did_from_args. rewrite (parse_within_two _ _ H).
      destruct args as [|v [|w args]]; [discriminate| |discriminate].
      destruct (map_to_list kwargs) as [|[k x] [|y l]]; try discriminate.
      destruct v; try discriminate.
      destruct (String.eqb k "scope"); [discriminate|].
      destruct (String.eqb k "name"); discriminate. }
    destruct (_parse_did_from_args args kwargs) as [did|e|] eqn:E; cbn.
    + assert (C : forall m, _construct_did blank did <> Raise (TooManyArguments m)).
      { intros m. unfold _construct_did.
        destruct did as [s|l|l|d|d|]; cbn [dispatch].
        - unfold _did_from_str.
          destruct (Nat.eqb _ 1); [|discriminate].
          destruct (negb _); discriminate.
        - unfold _did_from_list_or_tuple.
          destruct l as [|a [|b [|c l]]]; try discriminate.
          destruct a, b; discriminate.
        - unfold _did_from_list_or_tuple.
          destruct l as [|a [|b [|c l]]]; try discriminate.
          destruct a, b; discriminate.
        - unfold _did_from_dict.
          destruct (default (PyStr "") (d !! "scope")); try discriminate.
          destruct (default (PyStr "") (d !! "name")); try discriminate.
          cbn. destruct (negb _); discriminate.
        - discriminate.
        - discriminate. }
      destruct (_construct_did blank did) as [self|e'|] eqn:E'; cbn.
      * destruct (negb (is_valid_format self)); discriminate.
      * intros [= ->]. exact (C _ eq_refl).
      * discriminate.
    + intros [= ->]. exact (P _ eq_refl).
    + discriminate.
Qed.

Lemma too_many_arguments_witness :
  size ({[ "name" := PyStr "c" ]} : gmap string PyVal) = 1 /\
  __init__ [PyStr "a"; PyStr "b"] {[ "name" := PyStr "c" ]}
  = Raise (TooManyArguments
             (length [PyStr "a"; PyStr "b"]
              + size ({[ "name" := PyStr "c" ]} : gmap string PyVal))).
Proof.
  split; [reflexivity|].
  apply (proj1 (too_many_arguments [PyStr "a"; PyStr "b"] {[ "name" := PyStr "c" ]})).
  vm_compute. lia.
Defined.

(** X2. One positional string with the keyword [scope] or [name] is the
    pair made of both: [DID(n, scope=s)] is [DID((s, n))] and
    [DID(s, name=n)] is [DID((s, n))], results and errors alike. *)
Theorem positional_with_keyword (p : string) (v : PyVal) :
  __init__ [PyStr p] {[ "scope" := v ]} = __init__ [PyTuple [v; PyStr p]] ∅ /\
  __init__ [PyStr p] {[ "name" := v ]} = __init__ [PyTuple [PyStr p; v]] ∅.
Proof.
  split; unfold __init__ at 1; unfold _parse_did_from_args;
    rewrite map_size_singleton, map_to_list_singleton; reflexivity.
Qed.

(** X3. One positional string with a single keyword other than [scope] and
    [name] (the keyword [did] included) raises "unexpected keyword
    argument", whatever the values. *)
Theorem unexpected_keyword (p k : string) (v : PyVal) :
  k <> "scope" -> k <> "name" ->
  __init__ [PyStr p] {[ k := v ]} = Raise (UnexpectedKeyword k).
Proof.
  intros Hs Hn. unfold __init__, _parse_did_from_args.
  rewrite map_size_singleton, map_to_list_singleton. cbn.
  apply String.eqb_neq in Hs, Hn. rewrite Hs, Hn. reflexivity.
Qed.

Lemma unexpected_keyword_witness :
  __init__ [PyStr "a:b"] {[ "did" := PyStr "c:d" ]} = Raise (UnexpectedKeyword "did").
Proof. apply unexpected_keyword; discriminate. Defined.

(** X4. A positional argument that is not a string, given with one keyword
    argument, raises "expected to be string type", whatever the keyword;
    the keyword is not looked at. *)
Theorem positional_not_str_with_keyword (a : PyVal) (k : string) (v : PyVal) :
  (forall s, a <> PyStr s) ->
  __init__ [a] {[ k := v ]} = Raise PositionalNotStr.
Proof.
  intros H. unfold __init__, _parse_did_from_args.
  rewrite map_size_singleton, map_to_list_singleton. cbn.
  destruct a; try reflexivity. exfalso. exact (H _ eq_refl).
Qed.

Lemma positional_not_str_with_keyword_witness :
  __init__ [PyTuple [PyStr "a"; PyStr "b"]] {[ "scope" := PyStr "c" ]}
  = Raise PositionalNotStr.
Proof. apply positional_not_str_with_keyword. discriminate. Defined.

(** X5. Without positional arguments and with at most two keywords: when
    the keyword [did] is given, the constructor builds from its value alone
    and a second keyword is ignored; when it is not given, the keywords
    themselves are the mapping to build from. *)
Theorem keywords_only (kwargs : gmap string PyVal) :
  size kwargs <= 2 ->
  (forall v, kwargs !! "did" = Some v -> __init__ [] kwargs = __init__ [v] ∅) /\
  (kwargs !! "did" = None -> __init__ [] kwargs = __init__ [PyDict kwargs] ∅).
Proof.
  intros H.
  assert (E : Nat.ltb 2 (length (@nil PyVal) + size kwargs) = false).
  { apply parse_within_two. cbn. exact H. }
  split.
  - intros v Hv. unfold __init__ at 1. unfold _parse_did_from_args.
    rewrite E, Hv. reflexivity.
  - intros Hv. unfold __init__ at 1. unfold _parse_did_from_args.
    rewrite E, Hv. reflexivity.
Qed.

Lemma keywords_only_witness :
  __init__ [] (<["did" := PyStr "a:b"]> {[ "scope" := PyStr "ignored" ]})
  = __init__ [PyStr "a:b"] ∅.
Proof.
  apply (keywords_only (<["did" := PyStr "a:b"]> {[ "scope" := PyStr "ignored" ]}));
    vm_compute; [lia | reflexivity].
Defined.

(** ** Pairs, and the agreement of the forms *)

Lemma count_drop_last_other (c x : ascii) (s : string) :
  Str.endswith x s = true -> Ascii.eqb x c = false ->
  Str.count c (Str.drop_last s) = Str.count c s.
Proof.
  intros He Hx. rewrite (endswith_inv x s He) at 2.
  rewrite count_app. cbn. rewrite Hx. lia.
Qed.

Lemma strip_trailing_slash_valid_eq (d : DID) :
  is_valid_format (strip_trailing_slash d) = is_valid_format d.
Proof.
  unfold strip_trailing_slash.
  destruct (Str.endswith PATH_SEPARATOR (name d)) eqn:E; [|reflexivity].
  unfold is_valid_format. cbn [scope name].
  rewrite (count_drop_last_other SCOPE_SEPARATOR PATH_SEPARATOR _ E); reflexivity.
Qed.

Lemma init_pair (s n : string) :
  __init__ [PyTuple [PyStr s; PyStr n]] ∅ =
  let r := strip_trailing_slash (mkDID s n) in
  if is_valid_format r then Ok r else Raise (InvalidFormat (__str__ r)).
Proof.
  rewrite init_single. cbn.
  destruct (is_valid_format (strip_trailing_slash (mkDID s n))); reflexivity.
Qed.

Lemma init_mapping (s n : string) :
  s <> "" ->
  __init__ [PyDict (<["scope" := PyStr s]> {[ "name" := PyStr n ]})] ∅ =
  __init__ [PyTuple [PyStr s; PyStr n]] ∅.
Proof.
  intros Hs. rewrite init_pair, init_single.
  unfold _construct_did. cbn [dispatch]. unfold _did_from_dict.
  rewrite lookup_insert_eq, lookup_insert_ne by discriminate.
  rewrite lookup_singleton_eq.
  cbn [default from_option as_str mbind result_bind id].
  assert (E : has_scope (mkDID s n) = true) by (apply has_scope_true; exact Hs).
  rewrite E. cbn [negb mbind result_bind]. cbn zeta.
  destruct (is_valid_format (strip_trailing_slash (mkDID s n))); reflexivity.
Qed.

Lemma init_keywords_as_mapping (kwargs : gmap string PyVal) :
  size kwargs <= 2 -> kwargs !! "did" = None ->
  __init__ [] kwargs = __init__ [PyDict kwargs] ∅.
Proof.
  intros H Hd. unfold __init__ at 1. unfold _parse_did_from_args.
  rewrite (parse_within_two [] kwargs H), Hd. reflexivity.
Qed.

(** X6. A tuple or a list that does not have exactly two elements raises
    "requires exactly 2 elements" with the number of elements it has. *)
Theorem sequence_not_of_two (l : list PyVal) :
  length l <> 2 ->
  __init__ [PyTuple l] ∅ = Raise (NotTwoElements (length l)) /\
  __init__ [PyList l] ∅ = Raise (NotTwoElements (length l)).
Proof.
  intros H. rewrite !init_single. unfold _construct_did. cbn [dispatch].
  destruct l as [|a [|b [|c l]]]; cbn in *; try (split; reflexivity).
  congruence.
Qed.

Lemma sequence_not_of_two_witness :
  __init__ [PyTuple [PyStr "a"; PyStr "b"; PyStr "c"]] ∅
  = Raise (NotTwoElements (length [PyStr "a"; PyStr "b"; PyStr "c"])).
Proof.
  apply (sequence_not_of_two [PyStr "a"; PyStr "b"; PyStr "c"]). cbn. lia.
Defined.

(** X7. A pair of strings [(s, n)] is taken as it is, with no implicit
    scope looked for even when [s] is empty: the construction succeeds
    exactly when neither string contains [':'], with scope [s] and name [n]
    less one trailing ['/']; otherwise it raises "invalid format". *)
Theorem construction_from_pair (s n : string) :
  (no_separator s -> no_separator n ->
   __init__ [PyTuple [PyStr s; PyStr n]] ∅ = Ok (strip_trailing_slash (mkDID s n)) /\
   scope (strip_trailing_slash (mkDID s n)) = s) /\
  (~ (no_separator s /\ no_separator n) ->
   __init__ [PyTuple [PyStr s; PyStr n]] ∅ =
   Raise (InvalidFormat (__str__ (strip_trailing_slash (mkDID s n))))).
Proof.
  rewrite init_pair. cbn zeta. rewrite strip_trailing_slash_valid_eq.
  split.
  - intros Hs Hn.
    assert (V : is_valid_format (mkDID s n) = true)
      by (apply is_valid_format_true; split; assumption).
    rewrite V. split; [reflexivity|apply strip_trailing_slash_scope].
  - intros H. destruct (is_valid_format (mkDID s n)) eqn:V; [|reflexivity].
    apply is_valid_format_true in V. contradiction.
Qed.

Lemma construction_from_pair_witness :
  __init__ [PyTuple [PyStr ""; PyStr "user.jdoe.dataset/"]] ∅
  = Ok (strip_trailing_slash (mkDID "" "user.jdoe.dataset/")).
Proof.
  apply (proj1 (construction_from_pair "" "user.jdoe.dataset/")); reflexivity.
Defined.

(** X8. The forms agree: for a scope [a] without [':'], the string
    [a:b], the pair [(a, b)] and the two positional arguments [a, b] give
    the same result or the same error; when [a] is not empty, so do the
    mapping [{'scope': a, 'name': b}] and the keywords [scope=a, name=b]. *)
Theorem forms_agree (a b : string) :
  no_separator a ->
  __init__ [PyStr (a ++ ":" ++ b)] ∅ = __init__ [PyTuple [PyStr a; PyStr b]] ∅ /\
  __init__ [PyStr a; PyStr b] ∅ = __init__ [PyTuple [PyStr a; PyStr b]] ∅ /\
  __init__ [PyList [PyStr a; PyStr b]] ∅ = __init__ [PyTuple [PyStr a; PyStr b]] ∅ /\
  (a <> "" ->
   __init__ [PyDict (<["scope" := PyStr a]> {[ "name" := PyStr b ]})] ∅
   = __init__ [PyTuple [PyStr a; PyStr b]] ∅ /\
   __init__ [] (<["scope" := PyStr a]> {[ "name" := PyStr b ]})
   = __init__ [PyTuple [PyStr a; PyStr b]] ∅).
Proof.
  intros Ha. split; [|split; [reflexivity|split; [reflexivity|]]].
  - rewrite init_pair. apply (init_str_cut a b Ha).
  - intros Hne. split; [apply init_mapping; exact Hne|].
    rewrite init_keywords_as_mapping.
    + apply init_mapping. exact Hne.
    + rewrite map_size_insert_None, map_size_singleton; [lia|].
      rewrite lookup_singleton_ne; [reflexivity|discriminate].
    + rewrite lookup_insert_ne by discriminate.
      rewrite lookup_singleton_ne; [reflexivity|discriminate].
Qed.

Lemma forms_agree_witness :
  __init__ [] (<["scope" := PyStr "mc16"]> {[ "name" := PyStr "data.root" ]})
  = __init__ [PyTuple [PyStr "mc16"; PyStr "data.root"]] ∅.
Proof.
  destruct (forms_agree "mc16" "data.root") as (_ & _ & _ & H); [reflexivity|].
  apply H. discriminate.
Defined.

(** ** Comparison with other values *)



Lemma eqb_drop_last (s : string) :
  Str.endswith PATH_SEPARATOR s = true -> String.eqb s (Str.drop_last s) = false.
Proof.
  intros H. apply String.eqb_neq. intros E.
  apply length_drop_last in H. rewrite <- E in H. lia.
Qed.

(** X10. Comparison with a pair of strings: an identifier is equal to
    [(s, n)] exactly when neither string contains [':'], [s] is its scope
    and [n] less one trailing ['/'] is its name.  So a constructed
    identifier is equal to the pair of its own scope and name exactly when
    its name does not end with ['/']. *)
Theorem comparison_with_pair (d : DID) (s n : string) :
  (__eq__ d (PyTuple [PyStr s; PyStr n]) = Ok true <->
   no_separator s /\ no_separator n /\
   scope d = s /\ name d = name (strip_trailing_slash (mkDID s n))) /\
  (is_valid_format d = true ->
   __eq__ d (PyTuple [PyStr (scope d); PyStr (name d)])
   = Ok (negb (Str.endswith PATH_SEPARATOR (name d)))).
Proof.
  assert (E : forall s n, __eq__ d (PyTuple [PyStr s; PyStr n]) =
              if is_valid_format (mkDID s n)
              then Ok (String.eqb (scope d) s
                       && String.eqb (name d) (name (strip_trailing_slash (mkDID s n))))
              else Ok false).
  { intros s0 n0. cbn [__eq__]. rewrite init_pair. cbn zeta.
    rewrite strip_trailing_slash_valid_eq.
    destruct (is_valid_format (mkDID s0 n0)); [|reflexivity].
    rewrite strip_trailing_slash_scope. reflexivity. }
  split.
  - rewrite E. destruct (is_valid_format (mkDID s n)) eqn:V.
    + apply is_valid_format_true in V as [Vs Vn]. cbn [scope name] in Vs, Vn. split.
      * intros [= H]. apply andb_true_iff in H as [H1 H2].
        apply String.eqb_eq in H1, H2. auto.
      * intros (_ & _ & H1 & H2). rewrite H1, H2, !String.eqb_refl. reflexivity.
    + split; [discriminate|]. intros (Hs & Hn & _).
      assert (V' : is_valid_format (mkDID s n) = true)
        by (apply is_valid_format_true; split; assumption).
      congruence.
  - intros V. rewrite E. destruct d as [ds dn]. cbn [scope name] in *.
    rewrite V, String.eqb_refl. cbn [andb]. f_equal.
    unfold strip_trailing_slash. cbn [name].
    destruct (Str.endswith PATH_SEPARATOR dn) eqn:He; cbn [name negb].
    + apply eqb_drop_last. exact He.
    + apply String.eqb_refl.
Qed.

Lemma comparison_with_pair_witness :
  __eq__ (mkDID "a" "b/") (PyTuple [PyStr "a"; PyStr "b/"])
  = Ok (negb (Str.endswith PATH_SEPARATOR "b/")).
Proof.
  apply (proj2 (comparison_with_pair (mkDID "a" "b/") "a" "b/")). reflexivity.
Defined.

Section HashContract.
Variable hash : string -> Z.

(** X11. Equal values have equal hashes: two identifiers that compare
    equal have the same hash, and an identifier that compares equal to a
    string has the hash of that string. *)
Theorem equal_implies_same_hash (d : DID) :
  (forall d' : DID, __eq__ d (PyDID d') = Ok true ->
     __hash__ hash d = __hash__ hash d') /\
  (forall s : string, __eq__ d (PyStr s) = Ok true -> __hash__ hash d = hash s).
Proof.
  split.
  - intros d' H. apply eq_did_true in H as [Hs Hn].
    rewrite (fields_eq d d' Hs Hn). reflexivity.
  - intros s. cbn [__eq__]. intros [= H]. apply String.eqb_eq in H.
    unfold __hash__. rewrite H. reflexivity.
Qed.
End HashContract.

Lemma equal_implies_same_hash_witness :
  __hash__ (fun s => Z.of_nat (String.length s)) (mkDID "a" "b") = 3%Z.
Proof.
  apply (proj2 (equal_implies_same_hash (fun s => Z.of_nat (String.length s))
                  (mkDID "a" "b")) "a:b").
  reflexivity.
Defined.

(** ** Which strings and objects are accepted *)

Lemma has_scope_update (s : string) :
  has_scope (_update_implicit_scope (mkDID "" s)) = recognized s.
Proof.
  rewrite update_implicit_scope_eq. cbn [name].
  destruct (recognized s) eqn:R; [|reflexivity].
  apply has_scope_true. cbn [scope]. apply recognized_scope_nonempty. exact R.
Qed.

Lemma count_cut (a b : string) :
  no_separator a ->
  Str.count SCOPE_SEPARATOR (a ++ String SCOPE_SEPARATOR b)
  = S (Str.count SCOPE_SEPARATOR b).
Proof.
  intros Ha. rewrite count_app, Ha. reflexivity.
Qed.

(** X12. A string is accepted by the constructor exactly when it has one
    [':'], or has none and its first dot-separated part is ["user"] or
    ["group"]. *)
Theorem string_accepted_iff (s : string) :
  (exists d : DID, __init__ [PyStr s] ∅ = Ok d) <->
  Str.count SCOPE_SEPARATOR s = 1 \/
  (no_separator s /\ (first_part s = "user" \/ first_part s = "group")).
Proof.
  destruct (Nat.eq_dec (Str.count SCOPE_SEPARATOR s) 0) as [H0|H0].
  - rewrite (init_str_whole s H0). cbn zeta. rewrite has_scope_update.
    destruct (recognized s) eqn:R.
    + split; [|eauto]. intros _. right. split; [exact H0|].
      apply recognized_iff. exact R.
    + split; [intros [d Hd]; discriminate Hd|].
      intros [H1|[_ Hr]]; [congruence|].
      apply recognized_iff in Hr. congruence.
  - destruct (count_pos_cut SCOPE_SEPARATOR s H0) as (a & b & -> & Ha).
    rewrite (init_str_cut a b Ha). cbn zeta.
    rewrite strip_trailing_slash_valid_eq, (count_cut a b Ha).
    destruct (is_valid_format (mkDID a b)) eqn:V.
    + apply is_valid_format_true in V as [_ Vb]. cbn [name] in Vb.
      split; [|eauto]. intros _. left. rewrite Vb. reflexivity.
    + split; [intros [d Hd]; discriminate Hd|].
      intros [H1|[Hn _]].
      * exfalso. injection H1 as Hb.
        assert (V' : is_valid_format (mkDID a b) = true)
          by (apply is_valid_format_true; split; assumption).
        congruence.
      * exfalso. unfold no_separator in Hn. rewrite (count_cut a b Ha) in Hn.
        discriminate Hn.
Qed.

(** X13. Construction from an identifier object checks the format again:
    it succeeds exactly when neither attribute of the object contains
    [':'] (attributes can be assigned after construction), and raises
    "invalid format" otherwise. *)
Theorem copy_checks_format (d : DID) :
  (is_valid_format d = true ->
   __init__ [PyDID d] ∅ = Ok (strip_trailing_slash d)) /\
  (is_valid_format d = false ->
   __init__ [PyDID d] ∅ = Raise (InvalidFormat (__str__ (strip_trailing_slash d)))) /\
  ((exists d', __init__ [PyDID d] ∅ = Ok d') <->
   no_separator (scope d) /\ no_separator (name d)).
Proof.
  assert (E : __init__ [PyDID d] ∅ =
              if is_valid_format d then Ok (strip_trailing_slash d)
              else Raise (InvalidFormat (__str__ (strip_trailing_slash d)))).
  { rewrite init_single. unfold _construct_did. cbn [dispatch _did_from_did_object].
    destruct d as [s n].
    change (_did_from_did_object blank (mkDID s n)) with (Ok (mkDID s n)).
    cbn [mbind result_bind].
    rewrite <- (strip_trailing_slash_valid_eq (mkDID s n)).
    destruct (is_valid_format (strip_trailing_slash (mkDID s n))); reflexivity. }
  rewrite E. split; [intros ->; reflexivity|]. split; [intros ->; reflexivity|].
  unfold no_separator. rewrite <- is_valid_format_true.
  destruct (is_valid_format d); split; eauto; try discriminate.
  intros [d' H]. discriminate H.
Qed.

Lemma copy_checks_format_witness :
  __init__ [PyDID (mkDID "a:b" "c")] ∅
  = Raise (InvalidFormat (__str__ (strip_trailing_slash (mkDID "a:b" "c")))).
Proof.
  apply (proj1 (proj2 (copy_checks_format (mkDID "a:b" "c")))). reflexivity.
Defined.

(** ** The rendering *)

(** X14. The rendering of a constructed identifier has exactly one [':']
    when both scope and name are non-empty and none otherwise, and it is
    the empty string exactly when both are empty. *)
Theorem rendering_separators
  (args : list PyVal) (kwargs : gmap string PyVal) (d : DID) :
  __init__ args kwargs = Ok d ->
  Str.count SCOPE_SEPARATOR (__str__ d)
  = (if has_scope d && has_name d then 1 else 0) /\
  (__str__ d = "" <-> scope d = "" /\ name d = "").
Proof.
  intros H. apply init_ok_valid, is_valid_format_true in H as [Vs Vn].
  unfold __str__.
  destruct (has_scope d) eqn:Hs; destruct (has_name d) eqn:Hn; cbn [andb].
  - apply has_scope_true in Hs. apply has_name_true in Hn. split.
    + change (Str.count SCOPE_SEPARATOR
                (scope d ++ String SCOPE_SEPARATOR (name d)) = 1).
      rewrite (count_cut _ _ Vs), Vn. reflexivity.
    + split; [|intros [E _]; contradiction].
      intros E. destruct (scope d); [contradiction|discriminate E].
  - apply has_scope_true in Hs. apply has_name_false in Hn. split; [exact Vs|].
    split; [intros E; contradiction|intros [E _]; contradiction].
  - apply has_scope_false in Hs. apply has_name_true in Hn. split; [exact Vn|].
    split; [intros E; contradiction|intros [_ E]; contradiction].
  - apply has_scope_false in Hs. apply has_name_false in Hn. split; [exact Vn|].
    split; [intros _; split; assumption|intros _; assumption].
Qed.

Lemma rendering_separators_witness :
  Str.count SCOPE_SEPARATOR (__str__ (mkDID "user.jdoe" "user.jdoe.dataset")) = 1.
Proof.
  destruct (rendering_separators [PyStr "user.jdoe.dataset"] ∅
              (mkDID "user.jdoe" "user.jdoe.dataset")) as [H _];
    [reflexivity|exact H].
Defined.

(** X15. Cutting the rendering gives the attributes back: for a
    constructed identifier with a non-empty scope and a non-empty name,
    [_did_from_str] applied to its rendering yields its scope and its name,
    also when the name ends with ['/'] (only the stripping that follows in
    the constructor changes such a name). *)
Theorem rendering_cut_back
  (args : list PyVal) (kwargs : gmap string PyVal) (d self : DID) :
  __init__ args kwargs = Ok d ->
  scope d <> "" -> name d <> "" ->
  _did_from_str self (__str__ d) = Ok d.
Proof.
  intros H Hs Hn. apply init_ok_valid, is_valid_format_true in H as [Vs _].
  rewrite (str_both d Hs Hn), (did_from_str_cut self _ _ Vs).
  destruct d; reflexivity.
Qed.

Lemma rendering_cut_back_witness :
  _did_from_str blank (__str__ (mkDID "a" "b/")) = Ok (mkDID "a" "b/").
Proof.
  apply (rendering_cut_back [PyStr "a:b//"] ∅); [reflexivity|discriminate..].
Defined.

(** ** The implicit scope *)

Lemma append_assoc (a b c : string) : (a ++ b) ++ c = a ++ b ++ c.
Proof.
  induction a as [|x a IH]; [reflexivity|].
  change (String x ((a ++ b) ++ c) = String x (a ++ b ++ c)).
  rewrite IH. reflexivity.
Qed.

Lemma append_empty_r (a : string) : a ++ "" = a.
Proof.
  induction a as [|x a IH]; [reflexivity|].
  change (String x (a ++ "") = String x a).
  rewrite IH. reflexivity.
Qed.

(** Joining the parts of a split gives the string back. *)
Lemma join_split (c : ascii) (s : string) :
  Str.join (String c EmptyString) (Str.split c s) = s.
Proof.
  induction s as [|x s IH]; [reflexivity|].
  pose proof (split_nonempty c s) as Hne. cbn [Str.split].
  destruct (Ascii.eqb x c) eqn:E.
  - apply Ascii.eqb_eq in E. subst x.
    destruct (Str.split c s) as [|p ps]; [congruence|].
    change (String c (Str.join (String c EmptyString) (p :: ps)) = String c s).
    rewrite IH. reflexivity.
  - destruct (Str.split c s) as [|p ps]; [congruence|].
    destruct ps as [|q ps].
    + cbn in *. rewrite IH. reflexivity.
    + change (String x (Str.join (String c EmptyString) (p :: q :: ps)) = String x s).
      rewrite IH. reflexivity.
Qed.

Lemma join_take_prefix (sep : string) (parts : list string) :
  exists rest, Str.join sep parts = Str.join sep (take 2 parts) ++ rest.
Proof.
  destruct parts as [|p [|q [|r parts]]].
  - exists "". reflexivity.
  - exists "". cbn. rewrite append_empty_r. reflexivity.
  - exists "". cbn [take]. rewrite append_empty_r. reflexivity.
  - exists (sep ++ Str.join sep (r :: parts)).
    change (p ++ sep ++ q ++ sep ++ Str.join sep (r :: parts)
            = (p ++ sep ++ q) ++ sep ++ Str.join sep (r :: parts)).
    rewrite !append_assoc. reflexivity.
Qed.

(** X16. [_update_implicit_scope] never changes the name, and applying it
    twice is applying it once.  When the first part of the name is ["user"]
    or ["group"], the scope it sets is not empty, is a prefix of the name,
    and has no [':'] if the name has none. *)
Theorem implicit_scope_shape (self : DID) :
  name (_update_implicit_scope self) = name self /\
  _update_implicit_scope (_update_implicit_scope self) = _update_implicit_scope self /\
  (first_part (name self) = "user" \/ first_part (name self) = "group" ->
   scope (_update_implicit_scope self) <> "" /\
   (exists rest, name self = scope (_update_implicit_scope self) ++ rest) /\
   (no_separator (name self) -> no_separator (scope (_update_implicit_scope self)))).
Proof.
  split; [apply update_implicit_scope_name|]. split.
  - rewrite (update_implicit_scope_eq (_update_implicit_scope self)).
    rewrite update_implicit_scope_name.
    rewrite (update_implicit_scope_eq self).
    destruct (recognized (name self)); reflexivity.
  - intros H. apply recognized_iff in H.
    rewrite update_implicit_scope_eq, H. cbn [scope].
    split; [apply recognized_scope_nonempty; exact H|]. split.
    + destruct (join_take_prefix "."
                  (Str.split IMPLICIT_SCOPE_SEPARATOR (name self))) as [rest E].
      exists rest. rewrite <- E.
      symmetry. apply (join_split IMPLICIT_SCOPE_SEPARATOR).
    + intros Hn. apply join_parts_count; [reflexivity|].
      apply Forall_take, split_parts_count, Hn.
Qed.

Lemma implicit_scope_shape_witness :
  exists rest, "group.phys.data.root"
               = scope (_update_implicit_scope (mkDID "" "group.phys.data.root")) ++ rest.
Proof.
  destruct (implicit_scope_shape (mkDID "" "group.phys.data.root")) as (_ & _ & H).
  destruct H as (_ & H & _); [right; reflexivity|exact H].
Defined.

(** X17. An identifier built from a string without [':'] has a non-empty
    scope and a non-empty name; its name is the string less one trailing
    ['/'], and its scope is a prefix of the string as given (so the scope
    keeps a ['/'] that the name loses when the string has a single ['.']
    and ends with ['/']). *)
Theorem identifier_of_unseparated_string (s : string) (d : DID) :
  no_separator s ->
  __init__ [PyStr s] ∅ = Ok d ->
  scope d <> "" /\ name d <> "" /\
  name d = name (strip_trailing_slash (mkDID "" s)) /\
  scope d = scope (_update_implicit_scope (mkDID "" s)) /\
  exists rest, s = scope d ++ rest.
Proof.
  intros Hs H. destruct (init_str_whole_ok s d Hs H) as [H1 H2].
  split; [exact H1|]. split; [exact H2|].
  rewrite (init_str_whole s Hs) in H. cbn zeta in H.
  rewrite has_scope_update in H.
  destruct (recognized s) eqn:R; [|discriminate H]. injection H as <-.
  rewrite strip_trailing_slash_scope.
  split; [|split; [reflexivity|]].
  - unfold strip_trailing_slash. rewrite update_implicit_scope_name. cbn [name].
    destruct (Str.endswith PATH_SEPARATOR s); cbn [name];
      [reflexivity|apply update_implicit_scope_name].
  - rewrite update_implicit_scope_eq. cbn [name]. rewrite R. cbn [scope].
    destruct (join_take_prefix "." (Str.split IMPLICIT_SCOPE_SEPARATOR s)) as [rest E].
    exists rest. rewrite <- E. symmetry. apply (join_split IMPLICIT_SCOPE_SEPARATOR).
Qed.

Lemma identifier_of_unseparated_string_witness :
  scope (mkDID "user.jdoe/" "user.jdoe") <> "" /\
  name (mkDID "user.jdoe/" "user.jdoe") <> "" /\
  name (mkDID "user.jdoe/" "user.jdoe")
  = name (strip_trailing_slash (mkDID "" "user.jdoe/")) /\
  scope (mkDID "user.jdoe/" "user.jdoe")
  = scope (_update_implicit_scope (mkDID "" "user.jdoe/")) /\
  exists rest, "user.jdoe/" = scope (mkDID "user.jdoe/" "user.jdoe") ++ rest.
Proof.
  apply (identifier_of_unseparated_string "user.jdoe/" (mkDID "user.jdoe/" "user.jdoe"));
    reflexivity.
Defined.

(** ** Mappings *)

(** X18. A mapping is never refused for want of a scope.  With strings
    [s] and [n] under the keys ['scope'] and ['name'] ([''] for an absent
    key), the construction succeeds exactly when neither contains [':'];
    the name is then [n] less one trailing ['/'], and the scope is [s] when
    [s] is not empty and the implicit scope of [n], possibly empty,
    otherwise. *)
Theorem construction_from_mapping (d : gmap string PyVal) (s n : string) :
  default (PyStr "") (d !! "scope") = PyStr s ->
  default (PyStr "") (d !! "name") = PyStr n ->
  let built := if has_scope (mkDID s n) then mkDID s n
               else _update_implicit_scope (mkDID s n) in
  (no_separator s -> no_separator n ->
   __init__ [PyDict d] ∅ = Ok (strip_trailing_slash built)) /\
  (~ (no_separator s /\ no_separator n) ->
   __init__ [PyDict d] ∅ = Raise (InvalidFormat (__str__ (strip_trailing_slash built)))) /\
  (forall e, __init__ [PyDict d] ∅ = Raise e -> e <> NonSplitable).
Proof.
  intros Hs Hn built.
  assert (E : __init__ [PyDict d] ∅ =
              if is_valid_format built then Ok (strip_trailing_slash built)
              else Raise (InvalidFormat (__str__ (strip_trailing_slash built)))).
  { rewrite init_single. unfold _construct_did. cbn [dispatch]. unfold _did_from_dict.
    rewrite Hs, Hn. cbn [as_str mbind result_bind]. cbn zeta. fold built.
    assert (B : (if negb (has_scope (mkDID s n))
                 then Ok (_update_implicit_scope (mkDID s n))
                 else Ok (mkDID s n)) = Ok built).
    { unfold built. destruct (has_scope (mkDID s n)); reflexivity. }
    rewrite B. cbn [mbind result_bind].
    rewrite <- (strip_trailing_slash_valid_eq built).
    destruct (is_valid_format (strip_trailing_slash built)); reflexivity. }
  assert (V : is_valid_format built = is_valid_format (mkDID s n)).
  { unfold built. destruct (has_scope (mkDID s n)) eqn:Hsc; [reflexivity|].
    destruct (is_valid_format (mkDID s n)) eqn:Vd.
    - apply update_implicit_scope_valid. exact Vd.
    - apply has_scope_false in Hsc. cbn [scope] in Hsc. subst s.
      rewrite update_implicit_scope_eq. cbn [name].
      destruct (recognized n); [|exact Vd].
      match goal with |- is_valid_format ?r = false =>
        destruct (is_valid_format r) eqn:Vr; [|reflexivity] end.
      apply is_valid_format_true in Vr as [_ Vn]. cbn [name] in Vn.
      assert (Vd' : is_valid_format (mkDID "" n) = true)
        by (apply is_valid_format_true; split; [reflexivity|exact Vn]).
      congruence. }
  rewrite E, V. split; [|split].
  - intros Ns Nn.
    assert (Vd : is_valid_format (mkDID s n) = true)
      by (apply is_valid_format_true; split; assumption).
    rewrite Vd. reflexivity.
  - intros H. destruct (is_valid_format (mkDID s n)) eqn:Vd; [|reflexivity].
    apply is_valid_format_true in Vd. contradiction.
  - intros e. destruct (is_valid_format (mkDID s n)); [discriminate|].
    intros [= <-]. discriminate.
Qed.

Lemma construction_from_mapping_witness :
  __init__ [PyDict {[ "name" := PyStr "plainname/" ]}] ∅ = Ok (mkDID "" "plainname").
Proof.
  destruct (construction_from_mapping {[ "name" := PyStr "plainname/" ]}
              "" "plainname/") as [H _]; [reflexivity..|].
  apply H; reflexivity.
Defined.
